(** * Flask-User: the [UserManager] of [flask_user/user_manager.py]

    A shallow embedding of the settings check ([_check_settings]), of the
    lookup and availability helpers ([find_user_by_username],
    [find_user_by_email], [email_is_available], [username_is_available]) and
    of the route registration ([_add_url_routes], [init_urls], and the steps
    of [init_app] that lead to it), followed by the properties of them that
    the specification states.

    Part I is the program, Part II the vocabulary of the properties and the
    sample inputs, Part III the proofs: first of the properties that the
    specification states, then of further properties of the same methods and
    of the other steps of [init_app]. *)

From Stdlib Require Import ZArith.
From stdpp Require Import base option strings list gmap fin_maps sorting.

Open Scope string_scope.

(** * Part I: the program *)

(** ** Python values and truthiness *)

(** The values an attribute of the manager may hold.  Settings come from
    [app.config], so they are not only booleans: the code tests them with
    [if x] / [if not x], which is Python truthiness. *)
Inductive value : Type :=
| VNone
| VBool (b : bool)
| VInt (n : Z)
| VStr (s : string)
| VObj (name : string).

(** [bool(v)]. *)
Definition truthy (v : value) : bool :=
  match v with
  | VNone => false
  | VBool b => b
  | VInt n => negb (n =? 0)%Z
  | VStr s => negb (String.eqb s EmptyString)
  | VObj _ => true
  end.

(** ** Exceptions and results *)

Inductive exn : Type :=
| ConfigurationError (msg : string)
| AttributeError (msg : string).

Definition is_ConfigurationError (e : exn) : bool :=
  match e with ConfigurationError _ => true | AttributeError _ => false end.

(** The result of a call: a returned value or a raised exception. *)
Inductive result (A : Type) : Type :=
| Return (a : A)
| Raise (e : exn).
Arguments Return {A} a.
Arguments Raise {A} e.

#[global] Instance result_ret : MRet result := fun A a => Return a.

#[global] Instance result_bind : MBind result := fun A B f r =>
  match r with
  | Return a => f a
  | Raise e => Raise e
  end.

Definition returned {A} (r : result A) : bool :=
  match r with Return _ => true | Raise _ => false end.

(** [o is None] *)
Definition is_None {A} (o : option A) : bool :=
  match o with None => true | Some _ => false end.

(** ** Records of the data model, as far as the manager reads them *)

Record User : Type := {
  id : Z;
  username : option string;
  email : option string;
}.

(** A row of the [UserEmail] model: [user] is its relation to the owning
    user, [user_email] its [email] column. *)
Record UserEmail : Type := {
  user_email_id : Z;
  user : option User;
  user_email : string;
  is_primary : bool;
}.

Record UserInvitation : Type := {
  invitation_id : Z;
  invitation_email : string;
  invited_by_user_id : Z;
}.

(** A model class handed to the manager ([UserClass], [UserEmailClass],
    [UserInvitationClass]); the index is the type of its instances. *)
Inductive ObjectClass : Type -> Type :=
| UserModel (name : string) : ObjectClass User
| UserEmailModel (name : string) : ObjectClass UserEmail
| UserInvitationModel (name : string) : ObjectClass UserInvitation.

(** The DbAdapter interface ([flask_user/db_adapters], not among the sources
    here): the manager only calls it, so its methods are fields.  Keyword
    filters [field=value] are passed as a list of pairs. *)
Record DbAdapter : Type := {
  get_object : forall T, ObjectClass T -> Z -> option T;
  find_first_object : forall T, ObjectClass T -> list (string * value) -> option T;
  ifind_first_object : forall T, ObjectClass T -> list (string * string) -> option T;
}.
Arguments get_object _ {T} _ _.
Arguments find_first_object _ {T} _ _.
Arguments ifind_first_object _ {T} _ _.

(** ** The manager object *)

(** [db_adapter] and the three model classes are the attributes [init_app]
    assigns from its parameters; [attrs] is the rest of the instance
    dictionary, among them the [USER_...] settings.  [class_attrs] are the
    attributes of the class: the constants of the [UserManager__Settings]
    mixin ([flask_user/user_manager_settings.py], not among the sources
    here) give every [USER_...] name a default, which an attribute read
    falls back to when the instance dictionary has no entry. *)
Record UserManager : Type := {
  class_attrs : string -> value;
  db_adapter : option DbAdapter;
  UserClass : ObjectClass User;
  UserEmailClass : option (ObjectClass UserEmail);
  UserInvitationClass : option (ObjectClass UserInvitation);
  attrs : gmap string value;
}.

Definition set_attrs (self : UserManager) (d : gmap string value) : UserManager :=
  {| class_attrs := class_attrs self;
     db_adapter := db_adapter self;
     UserClass := UserClass self;
     UserEmailClass := UserEmailClass self;
     UserInvitationClass := UserInvitationClass self;
     attrs := d |}.

(** [self.<name>] for a setting. *)
Definition attr (self : UserManager) (name : string) : value :=
  default (class_attrs self name) (attrs self !! name).

(** ** Execution of a method that mutates [self]

    A call starts from a manager and ends with a result, the manager as the
    call left it (assignments made before an exception persist) and the
    trace of attribute reads, attribute assignments and raises, in program
    order. *)

Inductive event : Type :=
| EvGet (name : string)
| EvSet (name : string) (v : value)
| EvRaise (e : exn).

Record outcome (A : Type) : Type := Outcome {
  res : result A;
  final : UserManager;
  trace : list event;
}.
Arguments Outcome {A} _ _ _.
Arguments res {A} _.
Arguments final {A} _.
Arguments trace {A} _.

Definition Exec (A : Type) : Type := UserManager -> outcome A.

#[global] Instance Exec_ret : MRet Exec := fun A a self => Outcome (Return a) self [].

#[global] Instance Exec_bind : MBind Exec := fun A B f m self =>
  match m self with
  | Outcome (Return a) self1 t1 =>
      match f a self1 with
      | Outcome r self2 t2 => Outcome r self2 (t1 ++ t2)
      end
  | Outcome (Raise e) self1 t1 => Outcome (Raise e) self1 t1
  end.

Definition raise {A} (e : exn) : Exec A :=
  fun self => Outcome (Raise e) self [EvRaise e].

(** [self], for a step that passes the manager on. *)
Definition this : Exec UserManager :=
  fun self => Outcome (Return self) self [].

(** [self.<name>] *)
Definition getattr (name : string) : Exec value :=
  fun self => Outcome (Return (attr self name)) self [EvGet name].

(** [self.<name> = v] *)
Definition setattr (name : string) (v : value) : Exec unit :=
  fun self => Outcome (Return ()) (set_attrs self (<[name := v]> (attrs self))) [EvSet name v].

(** [self.db_adapter] *)
Definition get_db_adapter : Exec (option DbAdapter) :=
  fun self => Outcome (Return (db_adapter self)) self [EvGet "db_adapter"].

(** [self.UserInvitationClass] *)
Definition get_UserInvitationClass : Exec (option (ObjectClass UserInvitation)) :=
  fun self => Outcome (Return (UserInvitationClass self)) self [EvGet "UserInvitationClass"].

(** [if c: body] *)
Definition when (c : bool) (body : Exec unit) : Exec unit :=
  if c then body else mret ().

(** [a and not b], where [b] is evaluated only if [a] is truthy. *)
Definition and_not (a : bool) (b : Exec bool) : Exec bool :=
  if a then nb ← b; mret (negb nb) else mret false.

(** ** [UserManager._check_settings] *)

Definition _check_settings : Exec unit :=
  adapter ← get_db_adapter;
  when (is_None adapter)
    (raise (ConfigurationError "You must specify a DbAdapter interface or install Flask-SQLAlchemy or FlaskMongAlchemy."));;
  invite_user ← getattr "USER_ENABLE_INVITE_USER";
  missing ← and_not (truthy invite_user)
               (cls ← get_UserInvitationClass; mret (negb (is_None cls)));
  when missing
    (raise (ConfigurationError "Missing UserInvitationClass with USER_ENABLE_INVITE_USER=True setting."));;
  (* Disable settings that rely on a feature setting that's not enabled *)
  enable_username ← getattr "USER_ENABLE_USERNAME";
  neither ← and_not (negb (truthy enable_username))
               (enable_email ← getattr "USER_ENABLE_EMAIL"; mret (truthy enable_email));
  when neither
    (setattr "USER_ENABLE_REGISTER" (VBool false));;
  (* Settings that depend on USER_ENABLE_EMAIL *)
  enable_email ← getattr "USER_ENABLE_EMAIL";
  when (negb (truthy enable_email))
    (setattr "USER_ENABLE_CONFIRM_EMAIL" (VBool false);;
     setattr "USER_ENABLE_MULTIPLE_EMAILS" (VBool false);;
     setattr "USER_ENABLE_FORGOT_PASSWORD" (VBool false);;
     setattr "USER_SEND_PASSWORD_CHANGED_EMAIL" (VBool false);;
     setattr "USER_SEND_REGISTERED_EMAIL" (VBool false);;
     setattr "USER_SEND_USERNAME_CHANGED_EMAIL" (VBool false);;
     setattr "USER_REQUIRE_INVITATION" (VBool false));;
  (* Settings that depend on USER_ENABLE_USERNAME *)
  enable_username ← getattr "USER_ENABLE_USERNAME";
  when (negb (truthy enable_username))
    (setattr "USER_ENABLE_CHANGE_USERNAME" (VBool false)).

(** ** The logged-in user *)

(** An attribute that is a method in some versions of a library and a
    property in others. *)
Inductive function_or_property (A : Type) : Type :=
| Callable (f : unit -> A)
| Property (a : A).
Arguments Callable {A} f.
Arguments Property {A} a.

(** [function_or_property() if callable(function_or_property) else function_or_property] *)
Definition _call_or_get {A} (function_or_property : function_or_property A) : A :=
  match function_or_property with
  | Callable f => f ()
  | Property a => a
  end.

(** Flask-Login's [current_user]: the anonymous user, or the [User] that is
    logged in.  [as_method] tells whether this Flask-Login has
    [is_authenticated] as a method or as a property. *)
Inductive LoginUser : Type :=
| AnonymousUser (as_method : bool)
| LoggedIn (as_method : bool) (u : User).

Definition is_authenticated (cu : LoginUser) : function_or_property bool :=
  match cu with
  | AnonymousUser as_method => if as_method then Callable (fun _ => false) else Property false
  | LoggedIn as_method _ => if as_method then Callable (fun _ => true) else Property true
  end.

(** [current_user.username]; the anonymous user has no such attribute. *)
Definition current_user_username (cu : LoginUser) : result (option string) :=
  match cu with
  | AnonymousUser _ =>
      Raise (AttributeError "'AnonymousUserMixin' object has no attribute 'username'")
  | LoggedIn _ u => Return (username u)
  end.

(** What a method may read besides [self]: the globals of the request. *)
Record RequestContext : Type := {
  current_user : LoginUser;
}.

(** ** Lookups and availability checks *)

(** [self.db_adapter.<method>]: fails on [None]. *)
Definition the_db_adapter (self : UserManager) : result DbAdapter :=
  match db_adapter self with
  | Some adapter => Return adapter
  | None => Raise (AttributeError "'NoneType' object has no attribute 'ifind_first_object'")
  end.

Definition find_user_by_username (self : UserManager) (username : string)
  : result (option User) :=
  adapter ← the_db_adapter self;
  mret (ifind_first_object adapter (UserClass self) [("username", username)]).

Definition find_user_by_email (self : UserManager) (email : string)
  : result (option User * option UserEmail) :=
  match UserEmailClass self with
  | Some cls =>
      adapter ← the_db_adapter self;
      let user_email := ifind_first_object adapter cls [("email", email)] in
      let user := match user_email with Some ue => user ue | None => None end in
      mret (user, user_email)
  | None =>
      let user_email := None in
      adapter ← the_db_adapter self;
      let user := ifind_first_object adapter (UserClass self) [("email", email)] in
      mret (user, user_email)
  end.

Definition email_is_available (ctx : RequestContext) (self : UserManager)
    (new_email : string) : result bool :=
  '(user, user_email) ← find_user_by_email self new_email;
  mret (is_None user).

Definition username_is_available (ctx : RequestContext) (self : UserManager)
    (new_username : string) : result bool :=
  (* Allow user to change username to the current username *)
  same ← (if _call_or_get (is_authenticated (current_user ctx)) then
            current_username ← current_user_username (current_user ctx);
            mret (bool_decide (Some new_username = current_username))
          else mret false);
  if same : bool then mret true
  else
    (* See if new_username is available *)
    found ← find_user_by_username self new_username;
    mret (is_None found).

(** ** Routes *)

(** A rule as [app.add_url_rule(rule, endpoint, view_func, methods=...)]
    records it. *)
Record url_rule : Type := {
  rule : value;
  endpoint : string;
  view_func : value;
  methods : option (list string);
}.

(** The application, as far as the manager changes it. *)
Record Flask : Type := {
  url_rules : list url_rule;
}.

(** [app.add_url_rule(...)]: the rule is appended to the application's. *)
Definition add_url_rule (app : Flask) (rule : value) (endpoint : string)
    (view_func : value) (methods : option (list string)) : Flask :=
  {| url_rules := url_rules app ++
       [{| rule := rule; endpoint := endpoint; view_func := view_func; methods := methods |}] |}.

Definition GET_POST : option (list string) := Some ["GET"; "POST"].



(** The stubs are closures local to [init_urls]; each is a function object. *)
Definition init_urls (self : UserManager) (app : Flask) : Flask :=
  let change_password_stub := VObj "change_password_stub" in
  let change_username_stub := VObj "change_username_stub" in
  let confirm_email_stub := VObj "confirm_email_stub" in
  let edit_user_profile_stub := VObj "edit_user_profile_stub" in
  let email_action_stub := VObj "email_action_stub" in
  let forgot_password_stub := VObj "forgot_password_stub" in
  let manage_emails_stub := VObj "manage_emails_stub" in
  let invite_user_stub := VObj "invite_user_stub" in
  let login_stub := VObj "login_stub" in
  let logout_stub := VObj "logout_stub" in
  let register_stub := VObj "register_stub" in
  let resend_email_confirmation_stub := VObj "resend_email_confirmation_stub" in
  let reset_password_stub := VObj "reset_password_stub" in
  let app := add_url_rule app (attr self "USER_CHANGE_PASSWORD_URL") "user.change_password" change_password_stub GET_POST in
  let app := add_url_rule app (attr self "USER_CHANGE_USERNAME_URL") "user.change_username" change_username_stub GET_POST in
  let app := add_url_rule app (attr self "USER_CONFIRM_EMAIL_URL") "user.confirm_email" confirm_email_stub None in
  let app := add_url_rule app (attr self "USER_EDIT_USER_PROFILE_URL") "user.edit_user_profile" edit_user_profile_stub GET_POST in
  let app := add_url_rule app (attr self "USER_EMAIL_ACTION_URL") "user.email_action" email_action_stub None in
  let app := add_url_rule app (attr self "USER_FORGOT_PASSWORD_URL") "user.forgot_password" forgot_password_stub GET_POST in
  let app := add_url_rule app (attr self "USER_INVITE_USER_URL") "user.invite_user" invite_user_stub GET_POST in
  let app := add_url_rule app (attr self "USER_LOGIN_URL") "user.login" login_stub GET_POST in
  let app := add_url_rule app (attr self "USER_LOGOUT_URL") "user.logout" logout_stub GET_POST in
  let app := add_url_rule app (attr self "USER_MANAGE_EMAILS_URL") "user.manage_emails" manage_emails_stub GET_POST in
  let app := add_url_rule app (attr self "USER_REGISTER_URL") "user.register" register_stub GET_POST in
  let app := add_url_rule app (attr self "USER_RESEND_EMAIL_CONFIRMATION_URL") "user.resend_email_confirmation" resend_email_confirmation_stub GET_POST in
  add_url_rule app (attr self "USER_RESET_PASSWORD_URL") "user.reset_password" reset_password_stub GET_POST.

(** ** Initialization *)

(** [UserManager.init_app], from the customization hook to the registration
    of the routes:
    [self.customize(app); self._check_settings(); self.init_urls(app)].
    [customize] is the hook that a subclass overrides.  The statements of
    [init_app] before these build the manager that the run starts from; of
    those after them only [init_views(app, self)] is given the application,
    and [flask_user/user_manager_views.py] is not among the sources here. *)
Definition init_app (customize : Flask -> Exec unit) (app : Flask) : Exec Flask :=
  (* Allow CustomUserManager to customize settings and methods *)
  customize app;;
  (* Make sure the settings are valid -- raise ConfigurationError if not *)
  _check_settings;;
  self ← this;
  mret (init_urls self app).

(** The default hook: [pass]. *)
Definition customize : Flask -> Exec unit := fun app => mret ().

(** ** Other lookups *)

(** [self.db_adapter.<method>], with the method in the error message. *)
Definition db_adapter_method (self : UserManager) (method : string) : result DbAdapter :=
  match db_adapter self with
  | Some adapter => Return adapter
  | None =>
      Raise (AttributeError ("'NoneType' object has no attribute '" +:+ method +:+ "'"))
  end.

Definition get_user_by_id (self : UserManager) (user_id : Z) : result (option User) :=
  adapter ← db_adapter_method self "get_object";
  mret (get_object adapter (UserClass self) user_id).

(** Returns the [UserEmail] that the adapter finds (or [None]) when a
    [UserEmailClass] is configured, and the user itself otherwise. *)
Definition get_primary_user_email (self : UserManager) (user : User)
  : result (option UserEmail + User) :=
  let db_adapter := db_adapter self in
  match UserEmailClass self with
  | Some cls =>
      adapter ← db_adapter_method self "find_first_object";
      let user_email :=
        find_first_object adapter cls
          [("user_id", VInt (id user)); ("is_primary", VBool true)] in
      mret (inl user_email)
  | None => mret (inr user)
  end.

(** ** The other steps of [init_app] that change the manager *)

(** [dir(self)], [getattr(UserManager, name)] and [hasattr(self, name)]
    depend on which names the class [UserManager] defines.  Its mixins are
    not among the sources here, so the steps below take these names as
    [class_names]; the values are those of [class_attrs].  A name that only
    the instance (or a subclass) has is an entry of [attrs]. *)

(** The attributes of the instance that are fields of [UserManager] here. *)
Definition instance_fields : list string :=
  ["db_adapter"; "UserClass"; "UserEmailClass"; "UserInvitationClass"].

(** [hasattr(self, name)] *)
Definition hasattr (class_names : list string) (self : UserManager) (name : string) : bool :=
  bool_decide (name ∈ instance_fields)
  || bool_decide (is_Some (attrs self !! name))
  || bool_decide (name ∈ class_names).

(** The order of names in [dir(self)]. *)
Definition name_le (a b : string) : Prop := String.leb a b = true.

#[global] Instance name_le_dec (a b : string) : Decision (name_le a b).
Proof. unfold name_le. apply _. Defined.

(** [dir(self)]: the names of the instance and of its class, sorted. *)
Definition dir (class_names : list string) (self : UserManager) : list string :=
  merge_sort name_le
    (remove_dups (instance_fields ++ (map_to_list (attrs self)).*1 ++ class_names)).

(** [for x in l: body] *)
Fixpoint for_each {A} (l : list A) (body : A -> Exec unit) : Exec unit :=
  match l with
  | [] => mret ()
  | x :: l' => body x;; for_each l' body
  end.

(** [getattr(UserManager, name)] *)
Definition class_getattr (class_names : list string) (name : string) : Exec value :=
  fun self =>
    if bool_decide (name ∈ class_names) then Outcome (Return (class_attrs self name)) self []
    else raise (AttributeError ("type object 'UserManager' has no attribute '" +:+ name +:+ "'")) self.

(** [init_app], lines 120-124: for each [USER_...] property, load the
    setting from the application config.  [config] is [app.config]. *)
Definition load_settings (class_names : list string) (config : gmap string value) : Exec unit :=
  self ← this;
  for_each (dir class_names self) (fun attrib_name =>
    when (String.eqb (String.substring 0 5 attrib_name) "USER_")
      (default_value ← class_getattr class_names attrib_name;
       setattr attrib_name (default default_value (config !! attrib_name)))).

(** [UserManager._create_default_attr] *)
Definition _create_default_attr (class_names : list string)
    (attribute_name : string) (default_value : value) : Exec unit :=
  self ← this;
  when (negb (hasattr class_names self attribute_name))
    (setattr attribute_name default_value).

(** The class of the [db] object given to [init_app]. *)
Inductive Db : Type :=
| SQLAlchemy
| MongoAlchemy
| OtherDb.

(** What the two [try] blocks of [init_app] depend on: whether
    [flask_sqlalchemy] and [flask_mongoalchemy] can be imported, and what
    importing and calling the adapter class of [flask_user/db_adapters] gives
    ([None] when that raises: the bare [except: pass] drops every
    exception, whatever it is). *)
Record Installed : Type := {
  flask_sqlalchemy : bool;
  flask_mongoalchemy : bool;
  SQLAlchemyDbAdapter : option DbAdapter;
  MongoAlchemyDbAdapter : option DbAdapter;
}.

(** [self.db_adapter = a] *)
Definition set_db_adapter (a : option DbAdapter) : Exec unit :=
  fun self =>
    Outcome (Return ())
      {| class_attrs := class_attrs self;
         db_adapter := a;
         UserClass := UserClass self;
         UserEmailClass := UserEmailClass self;
         UserInvitationClass := UserInvitationClass self;
         attrs := attrs self |}
      [EvSet "db_adapter" (if a is Some _ then VObj "DbAdapter" else VNone)].

(** [init_app], lines 138-157: configure a DbAdapter based on the class of
    the [db] parameter. *)
Definition configure_db_adapter (env : Installed) (db : Db) : Exec unit :=
  set_db_adapter None;;
  (* Check if db is a SQLAlchemy instance *)
  adapter ← get_db_adapter;
  when (is_None adapter)
    (if flask_sqlalchemy env then
       if db is SQLAlchemy then
         if SQLAlchemyDbAdapter env is Some a then set_db_adapter (Some a)
         else mret ()
       else mret ()
     else mret ());;
  (* Check if db is a MongoAlchemy instance *)
  adapter ← get_db_adapter;
  when (is_None adapter)
    (if flask_mongoalchemy env then
       if db is MongoAlchemy then
         if MongoAlchemyDbAdapter env is Some a then set_db_adapter (Some a)
         else mret ()
       else mret ()
     else mret ()).

(** * Part II: vocabulary of the properties *)

(** ** Settings resolution *)

(** The nine settings that resolution may assign. *)
Definition forced_settings : list string :=
  [ "USER_ENABLE_REGISTER";
    "USER_ENABLE_CONFIRM_EMAIL";
    "USER_ENABLE_MULTIPLE_EMAILS";
    "USER_ENABLE_FORGOT_PASSWORD";
    "USER_SEND_PASSWORD_CHANGED_EMAIL";
    "USER_SEND_REGISTERED_EMAIL";
    "USER_SEND_USERNAME_CHANGED_EMAIL";
    "USER_REQUIRE_INVITATION";
    "USER_ENABLE_CHANGE_USERNAME" ].

(** The settings that depend on [USER_ENABLE_EMAIL]. *)
Definition email_settings : list string :=
  [ "USER_ENABLE_CONFIRM_EMAIL";
    "USER_ENABLE_MULTIPLE_EMAILS";
    "USER_ENABLE_FORGOT_PASSWORD";
    "USER_SEND_PASSWORD_CHANGED_EMAIL";
    "USER_SEND_REGISTERED_EMAIL";
    "USER_SEND_USERNAME_CHANGED_EMAIL";
    "USER_REQUIRE_INVITATION" ].

(** The two errors of the hard-requirement checks. *)
Definition no_db_adapter : exn :=
  ConfigurationError "You must specify a DbAdapter interface or install Flask-SQLAlchemy or FlaskMongAlchemy.".

Definition no_invitation_class : exn :=
  ConfigurationError "Missing UserInvitationClass with USER_ENABLE_INVITE_USER=True setting.".

(** Whether the second check fails. *)
Definition invitation_class_missing (self : UserManager) : bool :=
  truthy (attr self "USER_ENABLE_INVITE_USER") && is_None (UserInvitationClass self).

(** [d] with every name of [names] set to [False]. *)
Definition disable (names : list string) (d : gmap string value) : gmap string value :=
  foldl (fun d k => <[k := VBool false]> d) d names.

(** The instance dictionary that a run which passes both checks leaves. *)
Definition resolved_attrs (self : UserManager) : gmap string value :=
  let username_on := truthy (attr self "USER_ENABLE_USERNAME") in
  let email_on := truthy (attr self "USER_ENABLE_EMAIL") in
  let d1 := if negb username_on && negb email_on
            then disable ["USER_ENABLE_REGISTER"] (attrs self) else attrs self in
  let d2 := if negb email_on
            then disable ["USER_ENABLE_CONFIRM_EMAIL"; "USER_ENABLE_MULTIPLE_EMAILS";
                          "USER_ENABLE_FORGOT_PASSWORD"; "USER_SEND_PASSWORD_CHANGED_EMAIL";
                          "USER_SEND_REGISTERED_EMAIL"; "USER_SEND_USERNAME_CHANGED_EMAIL";
                          "USER_REQUIRE_INVITATION"] d1
            else d1 in
  if negb username_on then disable ["USER_ENABLE_CHANGE_USERNAME"] d2 else d2.

(** Whether a run that passes both checks assigns [False] to [k]. *)
Definition forced (self : UserManager) (k : string) : bool :=
  let username_off := negb (truthy (attr self "USER_ENABLE_USERNAME")) in
  let email_off := negb (truthy (attr self "USER_ENABLE_EMAIL")) in
  (username_off && email_off && String.eqb k "USER_ENABLE_REGISTER")
  || (email_off && existsb (String.eqb k) email_settings)
  || (username_off && String.eqb k "USER_ENABLE_CHANGE_USERNAME").

(** The trace of a run that passes both checks. *)
Definition resolved_trace (self : UserManager) : list event :=
  let invite_on := truthy (attr self "USER_ENABLE_INVITE_USER") in
  let username_on := truthy (attr self "USER_ENABLE_USERNAME") in
  let email_on := truthy (attr self "USER_ENABLE_EMAIL") in
  [EvGet "db_adapter"; EvGet "USER_ENABLE_INVITE_USER"] ++
  (if invite_on then [EvGet "UserInvitationClass"] else []) ++
  [EvGet "USER_ENABLE_USERNAME"] ++
  (if username_on then [] else [EvGet "USER_ENABLE_EMAIL"]) ++
  (if negb username_on && negb email_on
   then [EvSet "USER_ENABLE_REGISTER" (VBool false)] else []) ++
  [EvGet "USER_ENABLE_EMAIL"] ++
  (if email_on then []
   else [EvSet "USER_ENABLE_CONFIRM_EMAIL" (VBool false);
         EvSet "USER_ENABLE_MULTIPLE_EMAILS" (VBool false);
         EvSet "USER_ENABLE_FORGOT_PASSWORD" (VBool false);
         EvSet "USER_SEND_PASSWORD_CHANGED_EMAIL" (VBool false);
         EvSet "USER_SEND_REGISTERED_EMAIL" (VBool false);
         EvSet "USER_SEND_USERNAME_CHANGED_EMAIL" (VBool false);
         EvSet "USER_REQUIRE_INVITATION" (VBool false)]) ++
  [EvGet "USER_ENABLE_USERNAME"] ++
  (if username_on then [] else [EvSet "USER_ENABLE_CHANGE_USERNAME" (VBool false)]).

(** The statements of [_check_settings] that follow the two checks, as the
    continuation they are in its body. *)
Definition after_checks : Exec unit :=
  enable_username ← getattr "USER_ENABLE_USERNAME";
  neither ← and_not (negb (truthy enable_username))
               (enable_email ← getattr "USER_ENABLE_EMAIL"; mret (truthy enable_email));
  when neither
    (setattr "USER_ENABLE_REGISTER" (VBool false));;
  enable_email ← getattr "USER_ENABLE_EMAIL";
  when (negb (truthy enable_email))
    (setattr "USER_ENABLE_CONFIRM_EMAIL" (VBool false);;
     setattr "USER_ENABLE_MULTIPLE_EMAILS" (VBool false);;
     setattr "USER_ENABLE_FORGOT_PASSWORD" (VBool false);;
     setattr "USER_SEND_PASSWORD_CHANGED_EMAIL" (VBool false);;
     setattr "USER_SEND_REGISTERED_EMAIL" (VBool false);;
     setattr "USER_SEND_USERNAME_CHANGED_EMAIL" (VBool false);;
     setattr "USER_REQUIRE_INVITATION" (VBool false));;
  enable_username ← getattr "USER_ENABLE_USERNAME";
  when (negb (truthy enable_username))
    (setattr "USER_ENABLE_CHANGE_USERNAME" (VBool false)).

(** ** Order of the events of a run *)

(** The events of the dependency-forcing pass: the assignments. *)
Definition is_forcing (ev : event) : bool :=
  match ev with EvSet _ _ => true | _ => false end.

(** The events of the hard-requirement checks: the reads they test and the
    raise of a [ConfigurationError]. *)
Definition is_validation (ev : event) : bool :=
  match ev with
  | EvGet name =>
      existsb (String.eqb name)
        ["db_adapter"; "USER_ENABLE_INVITE_USER"; "UserInvitationClass"]
  | EvSet _ _ => false
  | EvRaise e => is_ConfigurationError e
  end.

(** Every [first] event of the trace occurs before every [later] event. *)
Definition all_before (first later : event -> bool) (t : list event) : Prop :=
  forall i j x y,
    t !! i = Some x -> t !! j = Some y ->
    first x = true -> later y = true -> i < j.

(** The same, computed: no [later] event is a [first] event or is followed
    by one. *)
Fixpoint ordered (first later : event -> bool) (t : list event) : bool :=
  match t with
  | [] => true
  | x :: t' =>
      (if later x then negb (first x) && forallb (fun y => negb (first y)) t'
       else true)
      && ordered first later t'
  end.

(** The claim that forcing comes first: every assignment of the run occurs
    before every event of the hard-requirement checks. *)
Definition forcing_before_validation (self : UserManager) : Prop :=
  all_before is_forcing is_validation (trace (_check_settings self)).

(** What the code does: the checks come first. *)
Definition validation_before_forcing (self : UserManager) : Prop :=
  all_before is_validation is_forcing (trace (_check_settings self)).

(** An event that is no assignment, or assigns [False] to one of the nine. *)
Definition disables_forced_setting (ev : event) : Prop :=
  match ev with
  | EvSet k v => k ∈ forced_settings /\ v = VBool false
  | _ => True
  end.

(** ** Registered routes *)





(** An application with no rule yet. *)
Definition new_app : Flask := {| url_rules := [] |}.

(** ** A list-backed adapter *)

#[global] Instance value_eq_dec : EqDecision value.
Proof. solve_decision. Defined.

Record Store : Type := {
  users : list User;
  user_emails : list UserEmail;
  user_invitations : list UserInvitation;
}.

Definition lower_ascii (c : Ascii.ascii) : Ascii.ascii :=
  let n := Ascii.nat_of_ascii c in
  if (65 <=? n)%nat && (n <=? 90)%nat then Ascii.ascii_of_nat (n + 32) else c.

Fixpoint lower (s : string) : string :=
  match s with
  | EmptyString => EmptyString
  | String c s' => String (lower_ascii c) (lower s')
  end.

Definition of_option_string (o : option string) : value :=
  match o with Some s => VStr s | None => VNone end.

(** The columns of a row, by name. *)
Definition column {T} (cls : ObjectClass T) : string -> T -> option value :=
  match cls in ObjectClass T return string -> T -> option value with
  | UserModel _ => fun name u =>
      if String.eqb name "id" then Some (VInt (id u))
      else if String.eqb name "username" then Some (of_option_string (username u))
      else if String.eqb name "email" then Some (of_option_string (email u))
      else None
  | UserEmailModel _ => fun name ue =>
      if String.eqb name "id" then Some (VInt (user_email_id ue))
      else if String.eqb name "user_id" then Some (from_option (fun u => VInt (id u)) VNone (user ue))
      else if String.eqb name "email" then Some (VStr (user_email ue))
      else if String.eqb name "is_primary" then Some (VBool (is_primary ue))
      else None
  | UserInvitationModel _ => fun name inv =>
      if String.eqb name "id" then Some (VInt (invitation_id inv))
      else if String.eqb name "email" then Some (VStr (invitation_email inv))
      else if String.eqb name "invited_by_user_id" then Some (VInt (invited_by_user_id inv))
      else None
  end.

Definition rows {T} (cls : ObjectClass T) (st : Store) : list T :=
  match cls in ObjectClass T return list T with
  | UserModel _ => users st
  | UserEmailModel _ => user_emails st
  | UserInvitationModel _ => user_invitations st
  end.

(** Modelled from the spec: the adapters of [flask_user/db_adapters] are not
    among the sources.  The spec gives the interface: [get_object(class, id)],
    [find_first_object(class, **exact_filters)] and
    [ifind_first_object(class, **case_insensitive_filters)], the last a
    case-insensitive lookup that returns the first match or none. *)
Definition list_adapter (st : Store) : DbAdapter :=
  {| get_object := fun T cls i =>
       List.find (fun x => bool_decide (column cls "id" x = Some (VInt i))) (rows cls st);
     find_first_object := fun T cls filters =>
       List.find (fun x =>
         forallb (fun '(name, v) => bool_decide (column cls name x = Some v)) filters)
         (rows cls st);
     ifind_first_object := fun T cls filters =>
       List.find (fun x =>
         forallb (fun '(name, s) =>
           match column cls name x with
           | Some (VStr s') => String.eqb (lower s') (lower s)
           | _ => false
           end) filters)
         (rows cls st) |}.

(** ** Sample inputs *)

Definition no_rows : DbAdapter :=
  {| get_object := fun _ _ _ => None;
     find_first_object := fun _ _ _ => None;
     ifind_first_object := fun _ _ _ => None |}.

(** A manager whose class defaults enable every feature but invitations and
    whose instance dictionary is [d]. *)
Definition manager_with (adapter : option DbAdapter) (d : gmap string value) : UserManager :=
  {| class_attrs := fun name =>
       if String.eqb name "USER_ENABLE_INVITE_USER" then VBool false else VBool true;
     db_adapter := adapter;
     UserClass := UserModel "User";
     UserEmailClass := None;
     UserInvitationClass := None;
     attrs := d |}.

Definition email_off : UserManager :=
  manager_with (Some no_rows) {[ "USER_ENABLE_EMAIL" := VBool false ]}.

Definition email_off_no_adapter : UserManager :=
  manager_with None {[ "USER_ENABLE_EMAIL" := VBool false ]}.

Definition username_off : UserManager :=
  manager_with (Some no_rows) {[ "USER_ENABLE_USERNAME" := VBool false ]}.

Definition both_off : UserManager :=
  manager_with (Some no_rows)
    {[ "USER_ENABLE_USERNAME" := VBool false; "USER_ENABLE_EMAIL" := VBool false ]}.

Definition alice : User :=
  {| id := 1; username := Some "Alice"; email := Some "alice@example.com" |}.

Definition bob : User :=
  {| id := 2; username := Some "bob"; email := Some "bob@example.com" |}.

Definition two_users : UserManager :=
  manager_with
    (Some (list_adapter {| users := [alice; bob]; user_emails := []; user_invitations := [] |}))
    ∅.

Definition as_anonymous : RequestContext := {| current_user := AnonymousUser false |}.

Definition as_user (u : User) : RequestContext := {| current_user := LoggedIn false u |}.

(** ** Vocabulary of the further properties *)

(** The caller is logged in and [name] is the caller's current username. *)
Definition own_username (ctx : RequestContext) (name : string) : Prop :=
  exists as_method u,
    current_user ctx = LoggedIn as_method u /\ username u = Some name.

Definition raises_AttributeError {A} (r : result A) : Prop :=
  exists msg, r = Raise (AttributeError msg).

(** The settings are closed under the dependencies: no feature is on while
    what it depends on is off. *)
Definition dependency_closed (self : UserManager) : Prop :=
  (truthy (attr self "USER_ENABLE_REGISTER") = true ->
   truthy (attr self "USER_ENABLE_USERNAME") = true \/
   truthy (attr self "USER_ENABLE_EMAIL") = true) /\
  (forall name, name ∈ email_settings ->
   truthy (attr self name) = true ->
   truthy (attr self "USER_ENABLE_EMAIL") = true) /\
  (truthy (attr self "USER_ENABLE_CHANGE_USERNAME") = true ->
   truthy (attr self "USER_ENABLE_USERNAME") = true).

(** A manager with a [UserEmailClass], whose adapter knows one address. *)
Definition alice_at_work : UserEmail :=
  {| user_email_id := 1; user := Some alice;
     user_email := "alice@work.example"; is_primary := true |}.

Definition many_emails : UserManager :=
  {| class_attrs := class_attrs two_users;
     db_adapter :=
       Some (list_adapter {| users := [alice; bob]; user_emails := [alice_at_work];
                             user_invitations := [] |});
     UserClass := UserModel "User";
     UserEmailClass := Some (UserEmailModel "UserEmail");
     UserInvitationClass := None;
     attrs := ∅ |}.



(** A manager with invitations on and no [UserInvitationClass]. *)
Definition invite_without_class : UserManager :=
  manager_with (Some no_rows) {[ "USER_ENABLE_INVITE_USER" := VBool true ]}.












(** [name[0:5] == 'USER_'] *)
Definition is_setting_name (name : string) : bool :=
  String.eqb (String.substring 0 5 name) "USER_".

(** The value that the load gives a setting: that of [app.config], or else
    the default of the class. *)
Definition loaded_value (self : UserManager) (config : gmap string value)
    (name : string) : value :=
  default (class_attrs self name) (config !! name).

(** The instance dictionary after the loop has gone through [names]. *)
Definition load_names (self : UserManager) (config : gmap string value)
    (names : list string) (d : gmap string value) : gmap string value :=
  foldl (fun d name =>
           if is_setting_name name then <[name := loaded_value self config name]> d
           else d) d names.

(** Sample inputs of the settings load. *)
Definition some_class_names : list string :=
  ["USER_APP_NAME"; "USER_ENABLE_EMAIL"; "USER_ENABLE_CONFIRM_EMAIL"; "customize"].

Definition some_config : gmap string value :=
  {[ "USER_APP_NAME" := VStr "Shop"; "USER_UNKNOWN" := VInt 3;
     "SECRET_KEY" := VStr "secret" ]}.

(** A manager that holds a setting of its own before [init_app]. *)
Definition preset_email_off : UserManager :=
  manager_with None {[ "app" := VObj "app"; "USER_ENABLE_EMAIL" := VBool false ]}.

(** * Part III: proofs *)

(** ** Reading attributes after assignments *)

Lemma attr_set_attrs_insert self d k v k' :
  attr (set_attrs self (<[k := v]> d)) k' =
  if decide (k = k') then v else attr (set_attrs self d) k'.
Proof.
  unfold attr. cbn. rewrite lookup_insert. by case_decide.
Qed.

Lemma attr_set_attrs_same self k :
  attr (set_attrs self (attrs self)) k = attr self k.
Proof. reflexivity. Qed.

Lemma set_attrs_set_attrs self d d' :
  set_attrs (set_attrs self d) d' = set_attrs self d'.
Proof. reflexivity. Qed.

Lemma set_attrs_id self : set_attrs self (attrs self) = self.
Proof. by destruct self. Qed.

Lemma attr_set_attrs_ne self d k v k' :
  String.eqb k k' = false ->
  attr (set_attrs self (<[k := v]> d)) k' = attr (set_attrs self d) k'.
Proof.
  intros Hne%String.eqb_neq. rewrite attr_set_attrs_insert. by case_decide.
Qed.

Lemma attr_set_attrs_eq self d k v :
  attr (set_attrs self (<[k := v]> d)) k = v.
Proof. rewrite attr_set_attrs_insert. by case_decide. Qed.

Lemma attrs_set_attrs self d : attrs (set_attrs self d) = d.
Proof. reflexivity. Qed.

Ltac attr_simpl :=
  repeat first
    [ rewrite attrs_set_attrs
    | rewrite set_attrs_set_attrs
    | rewrite attr_set_attrs_eq
    | rewrite attr_set_attrs_ne by reflexivity
    | rewrite attr_set_attrs_same ].

(** ** Running a method step by step *)

Lemma exec_bind_Return {A B} (m : Exec A) (f : A -> Exec B) self a self1 t1 r self2 t2 :
  m self = Outcome (Return a) self1 t1 ->
  f a self1 = Outcome r self2 t2 ->
  (m ≫= f) self = Outcome r self2 (t1 ++ t2).
Proof. intros Hm Hf. unfold mbind, Exec_bind. by rewrite Hm, Hf. Qed.

Lemma exec_bind_Raise {A B} (m : Exec A) (f : A -> Exec B) self e self1 t1 :
  m self = Outcome (Raise e) self1 t1 ->
  (m ≫= f) self = Outcome (Raise e) self1 t1.
Proof. intros Hm. unfold mbind, Exec_bind. by rewrite Hm. Qed.

(** Rewrites the tests whose value is a hypothesis. *)
Ltac known_tests :=
  attr_simpl;
  repeat match goal with
         | H : truthy _ = _ |- _ => rewrite H
         | H : db_adapter _ = _ |- _ => rewrite H
         | H : UserInvitationClass _ = _ |- _ => rewrite H
         end;
  cbn [when and_not is_None negb andb].

(** Runs the call in the goal [m self = ?o], one statement after another. *)
Ltac exec :=
  cbv beta; known_tests;
  lazymatch goal with
  | |- (_ ≫= _) _ = _ =>
      first [ eapply exec_bind_Return; [exec | exec]
            | eapply exec_bind_Raise; exec ]
  | |- _ => first [eassumption | reflexivity]
  end.

(** ** [_check_settings] in closed form *)

Lemma check_settings_body :
  _check_settings =
  (adapter ← get_db_adapter;
   when (is_None adapter) (raise no_db_adapter);;
   invite_user ← getattr "USER_ENABLE_INVITE_USER";
   missing ← and_not (truthy invite_user)
                (cls ← get_UserInvitationClass; mret (negb (is_None cls)));
   when missing (raise no_invitation_class);;
   after_checks).
Proof. reflexivity. Qed.

Lemma after_checks_run self :
  after_checks self =
  Outcome (Return ()) (set_attrs self (resolved_attrs self))
    (drop (if truthy (attr self "USER_ENABLE_INVITE_USER") then 3 else 2)
          (resolved_trace self)).
Proof.
  unfold resolved_attrs, resolved_trace.
  destruct (truthy (attr self "USER_ENABLE_INVITE_USER"));
  destruct (truthy (attr self "USER_ENABLE_USERNAME")) eqn:Hu;
  destruct (truthy (attr self "USER_ENABLE_EMAIL")) eqn:He;
  (etransitivity; [unfold after_checks; exec | ]);
  rewrite ?set_attrs_id; reflexivity.
Qed.

(** [_check_settings] in closed form, by cases on what it tests. *)
Lemma check_settings_run self :
  _check_settings self =
  if is_None (db_adapter self) then
    Outcome (Raise no_db_adapter) self [EvGet "db_adapter"; EvRaise no_db_adapter]
  else if invitation_class_missing self then
    Outcome (Raise no_invitation_class) self
      [EvGet "db_adapter"; EvGet "USER_ENABLE_INVITE_USER";
       EvGet "UserInvitationClass"; EvRaise no_invitation_class]
  else
    Outcome (Return ()) (set_attrs self (resolved_attrs self)) (resolved_trace self).
Proof.
  rewrite check_settings_body. unfold invitation_class_missing.
  pose proof (after_checks_run self) as Hrest.
  destruct (db_adapter self) as [a|] eqn:Ha;
    [|etransitivity; [exec | reflexivity]].
  destruct (truthy (attr self "USER_ENABLE_INVITE_USER")) eqn:Hinv;
  [destruct (UserInvitationClass self) as [c|] eqn:Hc|];
  (etransitivity; [exec | unfold resolved_trace; rewrite ?Hinv; reflexivity]).
Qed.

(** When the run returns and where it ends. *)
Lemma check_settings_res self :
  res (_check_settings self) =
  if is_None (db_adapter self) then Raise no_db_adapter
  else if invitation_class_missing self then Raise no_invitation_class
  else Return ().
Proof.
  rewrite check_settings_run.
  by destruct (is_None (db_adapter self)), (invitation_class_missing self).
Qed.

Lemma check_settings_final self :
  final (_check_settings self) =
  if res (_check_settings self) is Return _
  then set_attrs self (resolved_attrs self) else self.
Proof.
  rewrite check_settings_run.
  by destruct (is_None (db_adapter self)), (invitation_class_missing self).
Qed.

Lemma check_settings_returns self :
  res (_check_settings self) = Return () ->
  is_None (db_adapter self) = false /\ invitation_class_missing self = false /\
  final (_check_settings self) = set_attrs self (resolved_attrs self).
Proof.
  rewrite check_settings_final, check_settings_res.
  by destruct (is_None (db_adapter self)), (invitation_class_missing self).
Qed.

(** ** What a run leaves in the instance dictionary *)

Lemma lookup_disable names (d : gmap string value) k :
  disable names d !! k =
  if existsb (String.eqb k) names then Some (VBool false) else d !! k.
Proof.
  revert d. induction names as [|n names IH]; intros d; [done|].
  change (disable (n :: names) d) with (disable names (<[n := VBool false]> d)).
  rewrite IH. cbn [existsb].
  destruct (existsb (String.eqb k) names); [by rewrite orb_true_r|].
  rewrite orb_false_r, lookup_insert.
  destruct (String.eqb_spec k n) as [Heq|Hne]; case_decide; congruence.
Qed.

Lemma lookup_resolved_attrs self k :
  resolved_attrs self !! k =
  if forced self k then Some (VBool false) else attrs self !! k.
Proof.
  unfold resolved_attrs, forced.
  destruct (truthy (attr self "USER_ENABLE_USERNAME")),
           (truthy (attr self "USER_ENABLE_EMAIL"));
    cbn [negb andb orb]; rewrite ?lookup_disable; fold email_settings;
    cbn [existsb orb andb];
    repeat match goal with
           | |- context [existsb ?f ?l] => destruct (existsb f l)
           | |- context [String.eqb k ?s] => destruct (String.eqb k s)
           end; reflexivity.
Qed.

Lemma attr_resolved self k :
  attr (set_attrs self (resolved_attrs self)) k =
  if forced self k then VBool false else attr self k.
Proof.
  unfold attr at 1. cbn [attrs class_attrs set_attrs].
  rewrite lookup_resolved_attrs. by destruct (forced self k).
Qed.

Lemma forced_in_forced_settings self k :
  forced self k = true -> k ∈ forced_settings.
Proof.
  unfold forced, forced_settings, email_settings. cbn [existsb].
  intros H. apply list_elem_of_In.
  repeat match type of H with
         | context [String.eqb k ?s] =>
             destruct (String.eqb_spec k s) as [Heq|_];
               [subst k; cbn; repeat first [by left | right]|]
         end.
  destruct (truthy (attr self "USER_ENABLE_USERNAME")),
           (truthy (attr self "USER_ENABLE_EMAIL")); cbn in H; discriminate H.
Qed.

(** None of the settings that [_check_settings] reads is one it assigns. *)
Lemma forced_resolved self k :
  forced (set_attrs self (resolved_attrs self)) k = forced self k.
Proof.
  unfold forced. rewrite !attr_resolved.
  assert (forced self "USER_ENABLE_USERNAME" = false) as ->.
  { unfold forced. cbn. by rewrite !andb_false_r. }
  assert (forced self "USER_ENABLE_EMAIL" = false) as ->.
  { unfold forced. cbn. by rewrite !andb_false_r. }
  reflexivity.
Qed.

Lemma resolved_attrs_resolved self :
  resolved_attrs (set_attrs self (resolved_attrs self)) = resolved_attrs self.
Proof.
  apply map_eq; intros k.
  rewrite !lookup_resolved_attrs, forced_resolved. cbn [attrs set_attrs].
  rewrite lookup_resolved_attrs. by destruct (forced self k).
Qed.

Lemma invitation_class_missing_resolved self :
  invitation_class_missing (set_attrs self (resolved_attrs self)) =
  invitation_class_missing self.
Proof.
  unfold invitation_class_missing. rewrite attr_resolved.
  assert (forced self "USER_ENABLE_INVITE_USER" = false) as ->; [|done].
  unfold forced. cbn. by rewrite !andb_false_r.
Qed.

(** ** The traces of [_check_settings] *)

Lemma ordered_all_before first later t :
  ordered first later t = true -> all_before first later t.
Proof.
  induction t as [|e t IH]; intros Hord i j x y Hi Hj Hx Hy; [done|].
  cbn [ordered] in Hord. apply andb_true_iff in Hord as [Hhead Htail].
  destruct j as [|j].
  - cbn in Hj. injection Hj as ->. rewrite Hy in Hhead.
    apply andb_true_iff in Hhead as [Hnx Hrest].
    destruct i as [|i].
    + cbn in Hi. injection Hi as ->. by rewrite Hx in Hnx.
    + cbn in Hi. rewrite forallb_forall in Hrest.
      apply list_elem_of_lookup_2, list_elem_of_In, Hrest in Hi.
      by rewrite Hx in Hi.
  - destruct i as [|i]; [lia|].
    cbn in Hi, Hj. pose proof (IH Htail i j x y Hi Hj Hx Hy). lia.
Qed.

Lemma check_settings_trace_ordered self :
  ordered is_validation is_forcing (trace (_check_settings self)) = true.
Proof.
  rewrite check_settings_run. unfold resolved_trace.
  destruct (is_None (db_adapter self)); [reflexivity|].
  destruct (invitation_class_missing self); [reflexivity|].
  by destruct (truthy (attr self "USER_ENABLE_INVITE_USER")),
              (truthy (attr self "USER_ENABLE_USERNAME")),
              (truthy (attr self "USER_ENABLE_EMAIL")).
Qed.

Lemma check_settings_trace_disables self :
  Forall disables_forced_setting (trace (_check_settings self)).
Proof.
  assert (forall k, In k forced_settings ->
            disables_forced_setting (EvSet k (VBool false))) as Hset.
  { intros k Hk. split; [by apply list_elem_of_In|done]. }
  rewrite check_settings_run. unfold resolved_trace.
  destruct (is_None (db_adapter self)); [by repeat constructor|].
  destruct (invitation_class_missing self); [by repeat constructor|].
  destruct (truthy (attr self "USER_ENABLE_INVITE_USER")),
           (truthy (attr self "USER_ENABLE_USERNAME")),
           (truthy (attr self "USER_ENABLE_EMAIL"));
    cbn [app negb andb];
    repeat (apply Forall_cons; split;
            [first [exact I | apply Hset; cbn; repeat first [by left | right]]|]);
    by apply Forall_nil.
Qed.

(** A run that raises has assigned nothing. *)
Lemma check_settings_raise_unchanged self :
  returned (res (_check_settings self)) = false ->
  final (_check_settings self) = self /\
  Forall (fun ev => is_forcing ev = false) (trace (_check_settings self)).
Proof.
  rewrite check_settings_run.
  destruct (is_None (db_adapter self)); [by repeat constructor|].
  destruct (invitation_class_missing self); [by repeat constructor|].
  discriminate.
Qed.

Example email_off_trace :
  trace (_check_settings email_off) =
  [EvGet "db_adapter"; EvGet "USER_ENABLE_INVITE_USER"; EvGet "USER_ENABLE_USERNAME";
   EvGet "USER_ENABLE_EMAIL";
   EvSet "USER_ENABLE_CONFIRM_EMAIL" (VBool false);
   EvSet "USER_ENABLE_MULTIPLE_EMAILS" (VBool false);
   EvSet "USER_ENABLE_FORGOT_PASSWORD" (VBool false);
   EvSet "USER_SEND_PASSWORD_CHANGED_EMAIL" (VBool false);
   EvSet "USER_SEND_REGISTERED_EMAIL" (VBool false);
   EvSet "USER_SEND_USERNAME_CHANGED_EMAIL" (VBool false);
   EvSet "USER_REQUIRE_INVITATION" (VBool false);
   EvGet "USER_ENABLE_USERNAME"].
Proof. vm_compute. reflexivity. Qed.

Example email_off_no_adapter_run :
  _check_settings email_off_no_adapter =
  Outcome (Raise no_db_adapter) email_off_no_adapter
    [EvGet "db_adapter"; EvRaise no_db_adapter].
Proof. reflexivity. Qed.

(** ** Settings resolution: the claims *)

(** C1, as stated, fails.  Claim: the dependency-forcing pass runs before
    the hard-requirement validation pass, so that every flag-forcing of a run
    happens before any [ConfigurationError] can be raised.  With an adapter
    and email support off, the run tests [db_adapter] (event 0) before its
    first assignment (event 4); without an adapter it raises while
    [USER_ENABLE_CONFIRM_EMAIL] is still on, nothing having been forced. *)
Lemma check_settings_forcing_not_first :
  ~ forcing_before_validation email_off /\
  (exists e, res (_check_settings email_off_no_adapter) = Raise e /\
             is_ConfigurationError e = true) /\
  truthy (attr email_off_no_adapter "USER_ENABLE_EMAIL") = false /\
  attr (final (_check_settings email_off_no_adapter)) "USER_ENABLE_CONFIRM_EMAIL"
    = VBool true.
Proof.
  split; [|split; [by exists no_db_adapter|by split]].
  intros Hclaim.
  assert (4 < 0); [|lia].
  apply (Hclaim 4 0 (EvSet "USER_ENABLE_CONFIRM_EMAIL" (VBool false))
                    (EvGet "db_adapter"));
    by rewrite ?email_off_trace.
Qed.

(** C1, amended: [_check_settings] runs the hard-requirement checks first.
    In every run each event of the checks (the reads of [db_adapter],
    [USER_ENABLE_INVITE_USER] and [UserInvitationClass], the raise of a
    [ConfigurationError]) occurs before each assignment, and a run that
    raises leaves the manager as it was, with no assignment in its trace. *)
Theorem check_settings_validation_first (self : UserManager) :
  validation_before_forcing self /\
  (returned (res (_check_settings self)) = false ->
   final (_check_settings self) = self /\
   Forall (fun ev => is_forcing ev = false) (trace (_check_settings self))).
Proof.
  split.
  - apply ordered_all_before, check_settings_trace_ordered.
  - apply check_settings_raise_unchanged.
Qed.

(** C2: settings resolution is idempotent.  After a run of
    [_check_settings] that returned, a second run returns too and leaves the
    manager, hence every setting, as the first run left it. *)
Theorem check_settings_idempotent (self : UserManager) :
  res (_check_settings self) = Return () ->
  let resolved := final (_check_settings self) in
  res (_check_settings resolved) = Return () /\
  final (_check_settings resolved) = resolved /\
  forall name, attr (final (_check_settings resolved)) name = attr resolved name.
Proof.
  intros (Ha & Hinv & ->)%check_settings_returns. cbn zeta.
  assert (res (_check_settings (set_attrs self (resolved_attrs self))) = Return ()) as Hres.
  { rewrite check_settings_res, invitation_class_missing_resolved.
    cbn [db_adapter set_attrs]. by rewrite Ha, Hinv. }
  assert (final (_check_settings (set_attrs self (resolved_attrs self)))
          = set_attrs self (resolved_attrs self)) as Hfinal.
  { rewrite check_settings_final, Hres.
    by rewrite resolved_attrs_resolved, set_attrs_set_attrs. }
  by rewrite Hfinal.
Qed.

Lemma check_settings_idempotent_witness :
  res (_check_settings email_off) = Return () /\
  res (_check_settings (final (_check_settings email_off))) = Return () /\
  final (_check_settings (final (_check_settings email_off)))
    = final (_check_settings email_off).
Proof.
  split; [reflexivity|].
  destruct (check_settings_idempotent email_off) as (Hres & Hfinal & _);
    [reflexivity|].
  split; [exact Hres|exact Hfinal].
Defined.

(** C3: [_check_settings] raises a [ConfigurationError] exactly when no
    adapter is configured ([db_adapter] is [None]) or
    [USER_ENABLE_INVITE_USER] is true and no [UserInvitationClass] is
    configured; in every other state it returns without raising. *)
Theorem check_settings_raises_iff (self : UserManager) :
  let unmet :=
    db_adapter self = None \/
    (truthy (attr self "USER_ENABLE_INVITE_USER") = true /\
     UserInvitationClass self = None) in
  ((exists msg, res (_check_settings self) = Raise (ConfigurationError msg)) <-> unmet) /\
  (res (_check_settings self) = Return () <-> ~ unmet).
Proof.
  cbn zeta. rewrite check_settings_res.
  unfold invitation_class_missing, no_db_adapter, no_invitation_class.
  destruct (db_adapter self) as [a|],
           (truthy (attr self "USER_ENABLE_INVITE_USER")),
           (UserInvitationClass self) as [c|]; cbn [is_None andb];
    (split; split;
     [ intros [msg Hmsg]; first [discriminate Hmsg | auto]
     | intros Hunmet; first [by eexists | by destruct Hunmet as [|[]]]
     | intros Hret; first [discriminate Hret | by intros [|[]]]
     | intros Hmet; first [reflexivity | destruct Hmet; auto] ]).
Qed.

(** C4: when [USER_ENABLE_EMAIL] is false (falsy, [False] included), a run
    of [_check_settings] that returns leaves the seven settings that depend
    on email support set to [False]. *)
Theorem check_settings_email_off (self : UserManager) :
  truthy (attr self "USER_ENABLE_EMAIL") = false ->
  res (_check_settings self) = Return () ->
  let resolved := final (_check_settings self) in
  attr resolved "USER_ENABLE_CONFIRM_EMAIL" = VBool false /\
  attr resolved "USER_ENABLE_MULTIPLE_EMAILS" = VBool false /\
  attr resolved "USER_ENABLE_FORGOT_PASSWORD" = VBool false /\
  attr resolved "USER_SEND_PASSWORD_CHANGED_EMAIL" = VBool false /\
  attr resolved "USER_SEND_REGISTERED_EMAIL" = VBool false /\
  attr resolved "USER_SEND_USERNAME_CHANGED_EMAIL" = VBool false /\
  attr resolved "USER_REQUIRE_INVITATION" = VBool false.
Proof.
  intros He (_ & _ & ->)%check_settings_returns. cbn zeta.
  rewrite !attr_resolved. unfold forced. rewrite He.
  cbn. by rewrite !andb_true_r, !orb_true_r.
Qed.

Lemma check_settings_email_off_witness :
  attr email_off "USER_ENABLE_CONFIRM_EMAIL" = VBool true /\
  attr (final (_check_settings email_off)) "USER_ENABLE_CONFIRM_EMAIL" = VBool false /\
  attr (final (_check_settings email_off)) "USER_REQUIRE_INVITATION" = VBool false.
Proof.
  split; [reflexivity|].
  pose proof (check_settings_email_off email_off) as H.
  cbn zeta in H.
  destruct H as (Hconfirm & _ & _ & _ & _ & _ & Hinvitation);
    [reflexivity|reflexivity|].
  split; [exact Hconfirm|exact Hinvitation].
Defined.

(** C5: when [USER_ENABLE_USERNAME] and [USER_ENABLE_EMAIL] are both false,
    a run of [_check_settings] that returns leaves [USER_ENABLE_REGISTER]
    set to [False]. *)
Theorem check_settings_no_identification (self : UserManager) :
  truthy (attr self "USER_ENABLE_USERNAME") = false ->
  truthy (attr self "USER_ENABLE_EMAIL") = false ->
  res (_check_settings self) = Return () ->
  attr (final (_check_settings self)) "USER_ENABLE_REGISTER" = VBool false.
Proof.
  intros Hu He (_ & _ & ->)%check_settings_returns.
  rewrite attr_resolved. unfold forced. by rewrite Hu, He.
Qed.

Lemma check_settings_no_identification_witness :
  attr both_off "USER_ENABLE_REGISTER" = VBool true /\
  attr (final (_check_settings both_off)) "USER_ENABLE_REGISTER" = VBool false.
Proof.
  split; [reflexivity|].
  apply (check_settings_no_identification both_off); reflexivity.
Defined.

(** C6: when [USER_ENABLE_USERNAME] is false, a run of [_check_settings]
    that returns leaves [USER_ENABLE_CHANGE_USERNAME] set to [False]; and if
    [USER_ENABLE_EMAIL] is true, [USER_ENABLE_REGISTER] keeps the value it
    had before the run. *)
Theorem check_settings_username_off (self : UserManager) :
  truthy (attr self "USER_ENABLE_USERNAME") = false ->
  res (_check_settings self) = Return () ->
  let resolved := final (_check_settings self) in
  attr resolved "USER_ENABLE_CHANGE_USERNAME" = VBool false /\
  (truthy (attr self "USER_ENABLE_EMAIL") = true ->
   attr resolved "USER_ENABLE_REGISTER" = attr self "USER_ENABLE_REGISTER" /\
   attrs resolved !! "USER_ENABLE_REGISTER" = attrs self !! "USER_ENABLE_REGISTER").
Proof.
  intros Hu (_ & _ & ->)%check_settings_returns. cbn zeta. split.
  - rewrite attr_resolved. unfold forced. rewrite Hu.
    cbn. by rewrite orb_true_r.
  - intros He. cbn [attrs set_attrs].
    rewrite attr_resolved, lookup_resolved_attrs. unfold forced.
    by rewrite Hu, He.
Qed.

Lemma check_settings_username_off_witness :
  attr (final (_check_settings username_off)) "USER_ENABLE_CHANGE_USERNAME" = VBool false /\
  attr (final (_check_settings username_off)) "USER_ENABLE_REGISTER" = VBool true.
Proof.
  pose proof (check_settings_username_off username_off) as H.
  cbn zeta in H.
  destruct H as (Hchange & Hregister); [reflexivity|reflexivity|].
  split; [exact Hchange|].
  destruct Hregister as [-> _]; reflexivity.
Defined.

(** C10: [_check_settings] only disables flags.  Every assignment of a run
    is to one of the nine settings of [forced_settings] and assigns [False];
    no other attribute of the manager changes; an entry of the instance
    dictionary is either left as it was or set to [False]; and no attribute
    that was false before the run is true after it. *)
Theorem check_settings_frame (self : UserManager) :
  let o := _check_settings self in
  Forall disables_forced_setting (trace o) /\
  class_attrs (final o) = class_attrs self /\
  db_adapter (final o) = db_adapter self /\
  UserClass (final o) = UserClass self /\
  UserEmailClass (final o) = UserEmailClass self /\
  UserInvitationClass (final o) = UserInvitationClass self /\
  (forall name, name ∉ forced_settings ->
     attrs (final o) !! name = attrs self !! name) /\
  (forall name, attrs (final o) !! name = attrs self !! name \/
                attrs (final o) !! name = Some (VBool false)) /\
  (forall name, truthy (attr self name) = false ->
     truthy (attr (final o) name) = false).
Proof.
  cbn zeta. split; [apply check_settings_trace_disables|].
  rewrite check_settings_final.
  destruct (res (_check_settings self)) as [[]|e].
  2:{ repeat split; auto. }
  cbn [class_attrs db_adapter UserClass UserEmailClass UserInvitationClass
       attrs set_attrs].
  repeat split.
  - intros name Hname. rewrite lookup_resolved_attrs.
    destruct (forced self name) eqn:Hf; [|done].
    by apply forced_in_forced_settings in Hf.
  - intros name. rewrite lookup_resolved_attrs.
    destruct (forced self name); auto.
  - intros name Hname. rewrite attr_resolved.
    by destruct (forced self name).
Qed.

(** ** Availability checks: examples and claims *)

Example find_user_by_username_ignores_case :
  find_user_by_username two_users "ALICE" = Return (Some alice).
Proof. reflexivity. Qed.

Example username_taken :
  username_is_available as_anonymous two_users "alice" = Return false /\
  username_is_available (as_user bob) two_users "Alice" = Return false.
Proof. split; reflexivity. Qed.

Example username_own :
  username_is_available (as_user alice) two_users "Alice" = Return true.
Proof. reflexivity. Qed.

(** The comparison with the current username is exact, the lookup is not. *)
Example username_own_other_case :
  username_is_available (as_user alice) two_users "alice" = Return false.
Proof. reflexivity. Qed.

Example username_free :
  username_is_available (as_user alice) two_users "carol" = Return true.
Proof. reflexivity. Qed.

Example email_own :
  find_user_by_email two_users "alice@example.com" = Return (Some alice, None) /\
  email_is_available (as_user alice) two_users "alice@example.com" = Return false.
Proof. split; reflexivity. Qed.

(** C7: [username_is_available] returns [True] when the caller is logged in
    and the candidate equals the caller's current username; otherwise it
    returns [True] exactly when [find_user_by_username], the
    case-insensitive lookup, finds no user. *)
Theorem username_is_available_spec
    (ctx : RequestContext) (self : UserManager) (new_username : string) :
  let own :=
    exists as_method u,
      current_user ctx = LoggedIn as_method u /\ username u = Some new_username in
  (own -> username_is_available ctx self new_username = Return true) /\
  (~ own ->
   (username_is_available ctx self new_username = Return true <->
    find_user_by_username self new_username = Return None)).
Proof.
  cbn zeta. unfold username_is_available, find_user_by_username.
  destruct ctx as [[m|m u]]; cbn [current_user].
  - split; [by intros (? & ? & ? & ?)|intros _].
    destruct m; cbn; destruct (the_db_adapter self) as [a|e]; cbn;
      [destruct (ifind_first_object a _ _)| |destruct (ifind_first_object a _ _)|];
      split; intros [=]; done.
  - assert (_call_or_get (is_authenticated (LoggedIn m u)) = true) as ->
      by by destruct m.
    cbn. case_bool_decide as Heq; cbn.
    + split; [done|]. intros Hown. destruct Hown. by exists m, u.
    + split; [intros (m' & u' & [= <- <-] & Hu); congruence|intros _].
      destruct (the_db_adapter self) as [a|e]; cbn;
        [destruct (ifind_first_object a _ _)|]; split; intros [=]; done.
Qed.

Lemma username_is_available_spec_witness :
  username_is_available (as_user alice) two_users "Alice" = Return true /\
  (username_is_available as_anonymous two_users "carol" = Return true <->
   find_user_by_username two_users "carol" = Return None).
Proof.
  destruct (username_is_available_spec (as_user alice) two_users "Alice")
    as [Hown _].
  destruct (username_is_available_spec as_anonymous two_users "carol")
    as [_ Hother].
  split.
  - apply Hown. by exists false, alice.
  - apply Hother. by intros (m & u & [=] & _).
Defined.

(** C8: [email_is_available] returns [True] exactly when
    [find_user_by_email] yields no user.  Whoever calls, the result is the
    same; an email whose owner is the logged-in caller is unavailable as
    well. *)
Theorem email_is_available_spec
    (ctx : RequestContext) (self : UserManager) (new_email : string) :
  (email_is_available ctx self new_email = Return true <->
   exists user_email, find_user_by_email self new_email = Return (None, user_email)) /\
  (email_is_available ctx self new_email = Return false <->
   exists owner user_email,
     find_user_by_email self new_email = Return (Some owner, user_email)) /\
  (forall ctx', email_is_available ctx' self new_email
                = email_is_available ctx self new_email) /\
  (forall as_method owner user_email,
     current_user ctx = LoggedIn as_method owner ->
     find_user_by_email self new_email = Return (Some owner, user_email) ->
     email_is_available ctx self new_email = Return false).
Proof.
  unfold email_is_available.
  destruct (find_user_by_email self new_email) as [[[owner|] ue]|e]; cbn.
  - split; [|split; [|split]].
    + split; [discriminate|]. by intros (? & [=]).
    + split; [intros _; by exists owner, ue|done].
    + done.
    + done.
  - split; [|split; [|split]].
    + split; [intros _; by exists ue|done].
    + split; [discriminate|]. by intros (? & ? & [=]).
    + done.
    + by intros ? ? ? _ [=].
  - split; [|split; [|split]].
    + split; [discriminate|]. by intros (? & [=]).
    + split; [discriminate|]. by intros (? & ? & [=]).
    + done.
    + by intros ? ? ? _ [=].
Qed.

Lemma email_is_available_spec_witness :
  email_is_available (as_user alice) two_users "alice@example.com" = Return false.
Proof.
  destruct (email_is_available_spec (as_user alice) two_users "alice@example.com")
    as (_ & _ & _ & Howner).
  by apply (Howner false alice None).
Defined.

(** ** Routes: the claims *)












(** ** Lookups: further properties *)

(** X1: what [find_user_by_email] returns.  With a [UserEmailClass] the user
    is the owner of the email record found, and there is no user without a
    record; without a [UserEmailClass] there is never a record. *)
Theorem find_user_by_email_shape
    (self : UserManager) (address : string)
    (found : option User) (record : option UserEmail) :
  find_user_by_email self address = Return (found, record) ->
  (is_Some (UserEmailClass self) -> found = record ≫= user) /\
  (UserEmailClass self = None -> record = None).
Proof.
  unfold find_user_by_email.
  destruct (UserEmailClass self) as [cls|], (the_db_adapter self) as [a|e];
    cbn; intros [=]; subst; by split.
Qed.

Lemma find_user_by_email_shape_witness :
  find_user_by_email many_emails "Alice@Work.example"
    = Return (Some alice, Some alice_at_work) /\
  find_user_by_email many_emails "alice@example.com" = Return (None, None) /\
  Some alice = Some alice_at_work ≫= user.
Proof.
  split; [reflexivity|]. split; [reflexivity|].
  apply (find_user_by_email_shape many_emails "Alice@Work.example");
    [reflexivity|by eexists].
Defined.

(** X2: the helpers on a manager with no adapter.  The lookups and
    [email_is_available] raise [AttributeError]; [username_is_available]
    still answers [True] for the caller's own username and raises for any
    other; [get_primary_user_email] returns the user when no
    [UserEmailClass] is configured and raises when one is. *)
Theorem helpers_without_adapter
    (ctx : RequestContext) (self : UserManager) (name : string)
    (user_id : Z) (u : User) :
  db_adapter self = None ->
  raises_AttributeError (get_user_by_id self user_id) /\
  raises_AttributeError (find_user_by_username self name) /\
  raises_AttributeError (find_user_by_email self name) /\
  raises_AttributeError (email_is_available ctx self name) /\
  (own_username ctx name -> username_is_available ctx self name = Return true) /\
  (~ own_username ctx name ->
   raises_AttributeError (username_is_available ctx self name)) /\
  (UserEmailClass self = None -> get_primary_user_email self u = Return (inr u)) /\
  (is_Some (UserEmailClass self) ->
   raises_AttributeError (get_primary_user_email self u)).
Proof.
  intros Hnone.
  unfold get_user_by_id, find_user_by_username, find_user_by_email,
    email_is_available, username_is_available, get_primary_user_email,
    find_user_by_email, find_user_by_username, the_db_adapter, db_adapter_method,
    raises_AttributeError, own_username.
  rewrite Hnone. cbn.
  split; [by eexists|]. split; [by eexists|].
  split; [destruct (UserEmailClass self); cbn; by eexists|].
  split; [destruct (UserEmailClass self); cbn; by eexists|].
  destruct ctx as [[m|m u']]; cbn [current_user].
  - split; [by intros (? & ? & ? & ?)|]. split.
    + intros _. destruct m; cbn; by eexists.
    + destruct (UserEmailClass self); cbn; split;
        first [done | by intros [? [=]] | intros _; by eexists].
  - assert (_call_or_get (is_authenticated (LoggedIn m u')) = true) as ->
      by by destruct m.
    cbn. case_bool_decide as Heq; cbn.
    + split; [done|]. split.
      * intros Hown. destruct Hown. by exists m, u'.
      * destruct (UserEmailClass self); cbn; split;
          first [done | by intros [? [=]] | intros _; by eexists].
    + split; [intros (m' & u'' & [= <- <-] & Hu); congruence|]. split.
      * intros _. by eexists.
      * destruct (UserEmailClass self); cbn; split;
          first [done | by intros [? [=]] | intros _; by eexists].
Qed.

Lemma helpers_without_adapter_witness :
  username_is_available (as_user alice) email_off_no_adapter "Alice" = Return true /\
  raises_AttributeError (username_is_available (as_user alice) email_off_no_adapter "bob") /\
  raises_AttributeError (email_is_available as_anonymous email_off_no_adapter "a@b.c").
Proof.
  destruct (helpers_without_adapter (as_user alice) email_off_no_adapter "Alice" 1 alice)
    as (_ & _ & _ & _ & Hown & _); [reflexivity|].
  destruct (helpers_without_adapter (as_user alice) email_off_no_adapter "bob" 1 alice)
    as (_ & _ & _ & _ & _ & Hother & _); [reflexivity|].
  destruct (helpers_without_adapter as_anonymous email_off_no_adapter "a@b.c" 1 alice)
    as (_ & _ & _ & Hemail & _); [reflexivity|].
  split; [|split].
  - apply Hown. by exists false, alice.
  - apply Hother. by intros (m & u & [= _ <-] & [=]).
  - exact Hemail.
Defined.

(** X3: [username_is_available] gives the same answer whether Flask-Login
    has [is_authenticated] as a method or as a property. *)
Theorem username_is_available_call_or_get
    (self : UserManager) (name : string) (as_method as_method' : bool) :
  (forall u,
     username_is_available {| current_user := LoggedIn as_method u |} self name
     = username_is_available {| current_user := LoggedIn as_method' u |} self name) /\
  username_is_available {| current_user := AnonymousUser as_method |} self name
  = username_is_available {| current_user := AnonymousUser as_method' |} self name.
Proof.
  unfold username_is_available. cbn [current_user].
  split; [intros u|]; by destruct as_method, as_method'.
Qed.

(** ** Settings resolution: further properties *)

Lemma forced_cases self name :
  forced self name = true ->
  (name = "USER_ENABLE_REGISTER" /\
   truthy (attr self "USER_ENABLE_USERNAME") = false /\
   truthy (attr self "USER_ENABLE_EMAIL") = false) \/
  (name ∈ email_settings /\ truthy (attr self "USER_ENABLE_EMAIL") = false) \/
  (name = "USER_ENABLE_CHANGE_USERNAME" /\
   truthy (attr self "USER_ENABLE_USERNAME") = false).
Proof.
  unfold forced. intros H.
  apply orb_true_iff in H as [H|H]; [apply orb_true_iff in H as [H|H]|].
  - apply andb_true_iff in H as [H Hname]. apply andb_true_iff in H as [Hu He].
    left. apply String.eqb_eq in Hname.
    by destruct (truthy (attr self "USER_ENABLE_USERNAME")),
                (truthy (attr self "USER_ENABLE_EMAIL")).
  - apply andb_true_iff in H as [He Hname]. right; left. split.
    + apply existsb_exists in Hname as (x & Hx & ->%String.eqb_eq).
      by apply list_elem_of_In.
    + by destruct (truthy (attr self "USER_ENABLE_EMAIL")).
  - apply andb_true_iff in H as [Hu Hname]. right; right.
    apply String.eqb_eq in Hname.
    by destruct (truthy (attr self "USER_ENABLE_USERNAME")).
Qed.

Lemma forced_email_setting self name :
  name ∈ email_settings ->
  truthy (attr self "USER_ENABLE_EMAIL") = false -> forced self name = true.
Proof.
  intros Hin He. unfold forced. rewrite He. cbn [negb andb].
  assert (existsb (String.eqb name) email_settings = true) as ->.
  { apply existsb_exists. exists name.
    split; [by apply list_elem_of_In|apply String.eqb_refl]. }
  by rewrite orb_true_r.
Qed.

Lemma forced_not_read self name :
  name = "USER_ENABLE_USERNAME" \/ name = "USER_ENABLE_EMAIL" ->
  forced self name = false.
Proof.
  intros [Hname|Hname]; subst name; unfold forced;
    destruct (truthy (attr self "USER_ENABLE_USERNAME")),
             (truthy (attr self "USER_ENABLE_EMAIL")); reflexivity.
Qed.

Lemma resolved_closed self :
  dependency_closed (set_attrs self (resolved_attrs self)).
Proof.
  unfold dependency_closed. rewrite !attr_resolved.
  rewrite !(forced_not_read self "USER_ENABLE_USERNAME") by auto.
  rewrite !(forced_not_read self "USER_ENABLE_EMAIL") by auto.
  split; [|split].
  - destruct (forced self "USER_ENABLE_REGISTER") eqn:Hf; [done|].
    intros _. unfold forced in Hf. cbn in Hf.
    destruct (truthy (attr self "USER_ENABLE_USERNAME")),
             (truthy (attr self "USER_ENABLE_EMAIL")); auto; discriminate Hf.
  - intros name Hin. rewrite attr_resolved.
    destruct (truthy (attr self "USER_ENABLE_EMAIL")) eqn:He; [done|].
    by rewrite forced_email_setting.
  - destruct (forced self "USER_ENABLE_CHANGE_USERNAME") eqn:Hf; [done|].
    intros _. unfold forced in Hf. cbn in Hf.
    destruct (truthy (attr self "USER_ENABLE_USERNAME")); [done|].
    by rewrite orb_true_r in Hf.
Qed.

(** X4: after a run of [_check_settings] that returns, the settings are
    closed under the dependencies: registration is on only if username or
    email support is, each of the seven email settings only if email support
    is, and change-username only if username support is. *)
Theorem check_settings_closed (self : UserManager) :
  res (_check_settings self) = Return () ->
  dependency_closed (final (_check_settings self)).
Proof.
  intros (_ & _ & ->)%check_settings_returns. apply resolved_closed.
Qed.

Lemma check_settings_closed_witness :
  dependency_closed (final (_check_settings both_off)) /\
  ~ dependency_closed both_off.
Proof.
  split.
  - apply (check_settings_closed both_off). reflexivity.
  - intros (Hregister & _). by destruct Hregister.
Defined.

(** X5: a run of [_check_settings] that returns changes the truth value of
    no setting exactly when the settings were closed under the dependencies
    before it; and with username and email support both on it leaves the
    manager as it was. *)
Theorem check_settings_fixes_closed (self : UserManager) :
  res (_check_settings self) = Return () ->
  (dependency_closed self <->
   forall name,
     truthy (attr (final (_check_settings self)) name) = truthy (attr self name)) /\
  (truthy (attr self "USER_ENABLE_USERNAME") = true ->
   truthy (attr self "USER_ENABLE_EMAIL") = true ->
   final (_check_settings self) = self).
Proof.
  intros (_ & _ & ->)%check_settings_returns. split; [split|].
  - intros (Hregister & Hemail & Hchange) name. rewrite attr_resolved.
    destruct (forced self name) eqn:Hf; [|done].
    apply forced_cases in Hf as [(-> & Hu & He)|[(Hin & He)|(-> & Hu)]]; cbn.
    + destruct (truthy (attr self "USER_ENABLE_REGISTER")); [|done].
      destruct Hregister; congruence.
    + destruct (truthy (attr self name)) eqn:Hname; [|done].
      apply Hemail in Hname; congruence.
    + destruct (truthy (attr self "USER_ENABLE_CHANGE_USERNAME")); [|done].
      rewrite Hchange in Hu; done.
  - intros Hsame. pose proof (resolved_closed self) as (Hregister & Hemail & Hchange).
    unfold dependency_closed.
    split; [|split].
    + rewrite <- !Hsame. exact Hregister.
    + intros name Hin. rewrite <- !Hsame. by apply Hemail.
    + rewrite <- !Hsame. exact Hchange.
  - intros Hu He. unfold resolved_attrs. rewrite Hu, He. cbn.
    apply set_attrs_id.
Qed.

Lemma check_settings_fixes_closed_witness :
  final (_check_settings two_users) = two_users /\
  truthy (attr email_off "USER_ENABLE_CONFIRM_EMAIL") = true /\
  truthy (attr (final (_check_settings email_off)) "USER_ENABLE_CONFIRM_EMAIL") = false.
Proof.
  destruct (check_settings_fixes_closed two_users) as [_ Hsame]; [reflexivity|].
  split; [by apply Hsame|]. by split.
Defined.

(** X6: the missing adapter is reported first.  With no adapter the run
    raises the error of the first check, with its message, straight after
    reading [db_adapter]: the invitation settings are not read.  With an
    adapter, invitations on and no [UserInvitationClass], it raises the
    error of the second check.  In both cases the manager is unchanged. *)
Theorem check_settings_errors (self : UserManager) :
  (db_adapter self = None ->
   _check_settings self =
   Outcome
     (Raise (ConfigurationError "You must specify a DbAdapter interface or install Flask-SQLAlchemy or FlaskMongAlchemy."))
     self
     [EvGet "db_adapter";
      EvRaise (ConfigurationError "You must specify a DbAdapter interface or install Flask-SQLAlchemy or FlaskMongAlchemy.")]) /\
  (is_Some (db_adapter self) ->
   truthy (attr self "USER_ENABLE_INVITE_USER") = true ->
   UserInvitationClass self = None ->
   res (_check_settings self) =
     Raise (ConfigurationError "Missing UserInvitationClass with USER_ENABLE_INVITE_USER=True setting.") /\
   final (_check_settings self) = self).
Proof.
  rewrite check_settings_run. unfold invitation_class_missing. split.
  - by intros ->.
  - intros [a ->] -> ->. by cbn.
Qed.

Lemma check_settings_errors_witness :
  trace (_check_settings email_off_no_adapter) =
    [EvGet "db_adapter";
     EvRaise (ConfigurationError "You must specify a DbAdapter interface or install Flask-SQLAlchemy or FlaskMongAlchemy.")] /\
  res (_check_settings invite_without_class) =
    Raise (ConfigurationError "Missing UserInvitationClass with USER_ENABLE_INVITE_USER=True setting.").
Proof.
  destruct (check_settings_errors email_off_no_adapter) as [Hadapter _].
  destruct (check_settings_errors invite_without_class) as [_ Hinvite].
  split.
  - by rewrite Hadapter.
  - apply Hinvite; [by eexists|reflexivity|reflexivity].
Defined.

(** ** Initialization: further properties *)

Lemma init_app_run hook app self :
  init_app hook app self =
  match hook app self with
  | Outcome (Return _) self1 t1 =>
      match _check_settings self1 with
      | Outcome (Return _) self2 t2 =>
          Outcome (Return (init_urls self2 app)) self2 (t1 ++ t2)
      | Outcome (Raise e) self2 t2 => Outcome (Raise e) self2 (t1 ++ t2)
      end
  | Outcome (Raise e) self1 t1 => Outcome (Raise e) self1 t1
  end.
Proof.
  unfold init_app, mbind, Exec_bind, this, mret, Exec_ret.
  destruct (hook app self) as [[[]|e] self1 t1]; [|done].
  destruct (_check_settings self1) as [[[]|e] self2 t2]; [|done].
  cbn. by rewrite app_nil_r.
Qed.





(** ** Routes: further properties *)


















(** ** The settings load *)

Lemma lookup_load_names self config names d k :
  load_names self config names d !! k =
  if is_setting_name k && bool_decide (k ∈ names)
  then Some (loaded_value self config k) else d !! k.
Proof.
  revert d. induction names as [|n names IH]; intros d.
  - by rewrite andb_false_r.
  - change (load_names self config (n :: names) d)
      with (load_names self config names
              (if is_setting_name n then <[n := loaded_value self config n]> d else d)).
    rewrite IH. destruct (is_setting_name k) eqn:Hk; cbn [andb].
    + case_bool_decide as Hin.
      * rewrite bool_decide_eq_true_2; [done|by right].
      * destruct (decide (k = n)) as [->|Hne].
        -- rewrite bool_decide_eq_true_2 by left. by rewrite Hk, lookup_insert_eq.
        -- rewrite bool_decide_eq_false_2 by (intros [?|?]%elem_of_cons; done).
           destruct (is_setting_name n); [by rewrite lookup_insert_ne|done].
    + destruct (is_setting_name n) eqn:Hn; [|done].
      rewrite lookup_insert_ne; [done|]. intros ->. congruence.
Qed.

Section Load.
Context (class_names : list string) (config : gmap string value).

Let body : string -> Exec unit := fun attrib_name =>
  when (String.eqb (String.substring 0 5 attrib_name) "USER_")
    (default_value ← class_getattr class_names attrib_name;
     setattr attrib_name (default default_value (config !! attrib_name))).

(** A name that the loop passes without raising. *)
Let passes (name : string) : bool :=
  negb (is_setting_name name) || bool_decide (name ∈ class_names).

Lemma load_body_passes self d name :
  passes name = true ->
  exists t,
    body name (set_attrs self d) =
    Outcome (Return ())
      (set_attrs self (load_names self config [name] d)) t.
Proof.
  unfold passes, body, load_names, is_setting_name. cbn [foldl].
  destruct (String.eqb (String.substring 0 5 name) "USER_"); cbn [negb orb when].
  - intros Hin. unfold mbind, Exec_bind, class_getattr. rewrite Hin. cbn.
    by eexists.
  - intros _. by eexists.
Qed.

Lemma load_body_raises self name :
  passes name = false ->
  exists msg, body name self =
              Outcome (Raise (AttributeError msg)) self [EvRaise (AttributeError msg)].
Proof.
  unfold passes, body, is_setting_name.
  destruct (String.eqb (String.substring 0 5 name) "USER_"); cbn [negb orb when];
    [|discriminate].
  intros Hin. unfold mbind, Exec_bind, class_getattr. rewrite Hin. cbn.
  by eexists.
Qed.

Lemma for_each_passes self names d :
  forallb passes names = true ->
  exists t,
    for_each names body (set_attrs self d) =
    Outcome (Return ()) (set_attrs self (load_names self config names d)) t.
Proof.
  revert d. induction names as [|n names IH]; intros d Hall.
  - by eexists.
  - cbn [forallb] in Hall. apply andb_true_iff in Hall as [Hn Hall].
    destruct (load_body_passes self d n Hn) as [t1 H1].
    destruct (IH (load_names self config [n] d) Hall) as [t2 H2].
    exists (t1 ++ t2)%list. cbn [for_each]. unfold mbind, Exec_bind.
    by rewrite H1, H2.
Qed.

Lemma for_each_raises self names d :
  forallb passes names = false ->
  exists msg, res (for_each names body (set_attrs self d)) = Raise (AttributeError msg).
Proof.
  revert d. induction names as [|n names IH]; intros d Hall; [discriminate|].
  cbn [forallb] in Hall. cbn [for_each]. unfold mbind, Exec_bind.
  destruct (passes n) eqn:Hn.
  - destruct (load_body_passes self d n Hn) as [t1 ->].
    destruct (IH (load_names self config [n] d) Hall) as [msg Hmsg].
    destruct (for_each names body _) as [r s t]. cbn in Hmsg. subst r. by exists msg.
  - destruct (load_body_raises (set_attrs self d) n Hn) as [msg ->]. by exists msg.
Qed.

Lemma elem_of_dir self name :
  name ∈ dir class_names self <->
  name ∈ instance_fields \/ is_Some (attrs self !! name) \/ name ∈ class_names.
Proof.
  unfold dir. rewrite (merge_sort_Permutation name_le), elem_of_remove_dups, !elem_of_app.
  rewrite list_elem_of_fmap. do 2 f_equiv. split.
  - intros ([k v] & -> & Hkv%elem_of_map_to_list). by exists v.
  - intros [v Hv]. exists (name, v). split; [done|by apply elem_of_map_to_list].
Qed.

Lemma load_settings_run self :
  load_settings class_names config self =
  for_each (dir class_names self) body self.
Proof.
  unfold load_settings, mbind, Exec_bind, this. cbn.
  by destruct (for_each _ _ self).
Qed.

Lemma dir_passes self :
  forallb passes (dir class_names self) = true <->
  forall name, is_setting_name name = true ->
    is_Some (attrs self !! name) -> name ∈ class_names.
Proof.
  rewrite forallb_forall. unfold passes. split.
  - intros Hall name Hname Hsome.
    assert (name ∈ dir class_names self) as Hin by (apply elem_of_dir; auto).
    apply list_elem_of_In, Hall in Hin. rewrite Hname in Hin. cbn in Hin.
    by apply bool_decide_eq_true in Hin.
  - intros Hinst name [Hfield|[Hsome|Hclass]]%list_elem_of_In%elem_of_dir.
    + assert (is_setting_name name = false) as ->; [|done].
      unfold instance_fields in Hfield.
      repeat (apply elem_of_cons in Hfield as [->|Hfield]; [done|]).
      by apply elem_of_nil in Hfield.
    + destruct (is_setting_name name) eqn:Hname; [|done].
      cbn. apply bool_decide_eq_true_2. auto.
    + rewrite bool_decide_eq_true_2 by done. apply orb_true_r.
Qed.

(** X12: the settings load of [init_app].  It raises, an [AttributeError],
    exactly when the instance has a [USER_...] attribute that the class does
    not define.  When it returns, every [USER_...] name of the class has the
    value that [app.config] gives it, or else the default of the class,
    whatever the instance held before; no other attribute has changed, so a
    key of [app.config] that the class does not define is not loaded. *)
Theorem load_settings_loads (self : UserManager) :
  let run := load_settings class_names config self in
  let loadable :=
    forall name, is_setting_name name = true ->
      is_Some (attrs self !! name) -> name ∈ class_names in
  (res run = Return () <-> loadable) /\
  (~ loadable -> exists msg, res run = Raise (AttributeError msg)) /\
  (loadable ->
   final run = set_attrs self (attrs (final run)) /\
   forall name,
     attrs (final run) !! name =
     if is_setting_name name && bool_decide (name ∈ class_names)
     then Some (loaded_value self config name)
     else attrs self !! name).
Proof.
  cbn zeta. rewrite load_settings_run, <- dir_passes.
  destruct (forallb passes (dir class_names self)) eqn:Hall.
  - destruct (for_each_passes self _ (attrs self) Hall) as [t Ht].
    rewrite set_attrs_id in Ht. rewrite Ht.
    cbn [res final]. split; [done|]. split; [done|]. intros _.
    split; [done|]. intros name. cbn [attrs set_attrs].
    rewrite lookup_load_names.
    destruct (is_setting_name name) eqn:Hname; [|done]. cbn [andb].
    pose proof (proj1 (dir_passes self) Hall) as Hinst.
    case_bool_decide as Hdir; case_bool_decide as Hclass; try done.
    + apply elem_of_dir in Hdir as [Hfield|[Hsome|?]]; [|by apply Hinst in Hsome|done].
      unfold instance_fields in Hfield.
      repeat (apply elem_of_cons in Hfield as [->|Hfield]; [done|]).
      by apply elem_of_nil in Hfield.
    + destruct Hdir. apply elem_of_dir. auto.
  - destruct (for_each_raises self _ (attrs self) Hall) as [msg Hmsg].
    rewrite set_attrs_id in Hmsg. rewrite Hmsg. split; [done|]. split; [by exists msg|done].
Qed.

Lemma load_settings_attr self name :
  res (load_settings class_names config self) = Return () ->
  is_setting_name name = true -> name ∈ class_names ->
  attr (final (load_settings class_names config self)) name
  = loaded_value self config name.
Proof.
  rewrite load_settings_run. intros Hres Hname Hclass.
  destruct (forallb passes (dir class_names self)) eqn:Hall.
  - destruct (for_each_passes self _ (attrs self) Hall) as [t Ht].
    rewrite set_attrs_id in Ht. rewrite Ht. cbn [final].
    unfold attr. cbn [attrs class_attrs set_attrs].
    rewrite lookup_load_names, Hname. cbn [andb].
    rewrite bool_decide_eq_true_2; [done|]. apply elem_of_dir. auto.
  - destruct (for_each_raises self _ (attrs self) Hall) as [msg Hmsg].
    rewrite set_attrs_id in Hmsg. congruence.
Qed.

End Load.

(** X16: the settings load followed by the settings check.  When both
    return, a setting that depends on email support is [False] whenever
    [USER_ENABLE_EMAIL] is false in [app.config] (or, absent from it, by the
    default of the class): [app.config] cannot turn such a setting on. *)
Theorem load_then_check_email_off
    (class_names : list string) (config : gmap string value)
    (self : UserManager) (name : string) :
  let run := (load_settings class_names config;; _check_settings) self in
  "USER_ENABLE_EMAIL" ∈ class_names ->
  truthy (loaded_value self config "USER_ENABLE_EMAIL") = false ->
  name ∈ email_settings ->
  res run = Return () ->
  attr (final run) name = VBool false.
Proof.
  cbn zeta. intros Hclass Hoff Hname. unfold mbind, Exec_bind.
  pose proof (load_settings_attr class_names config self "USER_ENABLE_EMAIL")
    as Hemail.
  destruct (load_settings class_names config self) as [[[]|e] self1 t1];
    [|discriminate].
  cbn [res final] in Hemail. specialize (Hemail eq_refl eq_refl Hclass).
  pose proof (check_settings_returns self1) as Hreturns.
  destruct (_check_settings self1) as [[[]|e] self2 t2]; [|discriminate].
  intros _. cbn [final]. destruct Hreturns as (_ & _ & Hfinal); [done|].
  cbn [final] in Hfinal. rewrite Hfinal, attr_resolved.
  rewrite forced_email_setting; [done|done|]. by rewrite Hemail.
Qed.

Lemma load_then_check_email_off_witness :
  let config : gmap string value :=
    {[ "USER_ENABLE_EMAIL" := VBool false; "USER_ENABLE_CONFIRM_EMAIL" := VBool true ]} in
  let run := (load_settings some_class_names config;; _check_settings) two_users in
  attrs (final (load_settings some_class_names config two_users))
    !! "USER_ENABLE_CONFIRM_EMAIL" = Some (VBool true) /\
  attr (final run) "USER_ENABLE_CONFIRM_EMAIL" = VBool false.
Proof.
  cbn zeta. split; [vm_compute; reflexivity|].
  apply (load_then_check_email_off some_class_names _ two_users).
  - apply list_elem_of_In. right. by left.
  - vm_compute; reflexivity.
  - apply list_elem_of_In. by left.
  - vm_compute; reflexivity.
Defined.

Lemma load_settings_loads_witness :
  let run := load_settings some_class_names some_config preset_email_off in
  res run = Return () /\
  attrs (final run) !! "USER_APP_NAME" = Some (VStr "Shop") /\
  attrs (final run) !! "USER_ENABLE_EMAIL" = Some (VBool true) /\
  attrs (final run) !! "USER_UNKNOWN" = None /\
  attrs (final run) !! "app" = Some (VObj "app").
Proof.
  cbn zeta.
  destruct (load_settings_loads some_class_names some_config preset_email_off)
    as (Hres & _ & Hloaded).
  assert (res (load_settings some_class_names some_config preset_email_off)
          = Return ()) as Hreturned by by vm_compute.
  split; [exact Hreturned|].
  destruct (Hloaded (proj1 Hres Hreturned)) as [_ Hvalues].
  rewrite !Hvalues. clear. repeat split; vm_compute; reflexivity.
Defined.

(** ** Default attributes and the choice of the adapter *)

(** X13: [_create_default_attr] never replaces an attribute.  It returns;
    when the manager or its class has the attribute, whatever its value, the
    manager is left as it was; otherwise the default becomes an entry of the
    instance dictionary and nothing else changes.  Afterwards the attribute
    exists, so a second call, with whatever default, changes nothing. *)
Theorem create_default_attr_keeps
    (class_names : list string) (name : string) (v : value) (self : UserManager) :
  let run := _create_default_attr class_names name v self in
  res run = Return () /\
  (hasattr class_names self name = true -> final run = self) /\
  (hasattr class_names self name = false ->
   final run = set_attrs self (<[name := v]> (attrs self))) /\
  hasattr class_names (final run) name = true /\
  (forall v', final (_create_default_attr class_names name v' (final run)) = final run).
Proof.
  assert (forall v s, _create_default_attr class_names name v s =
            if hasattr class_names s name then Outcome (Return ()) s []
            else Outcome (Return ()) (set_attrs s (<[name := v]> (attrs s)))
                   [EvSet name v]) as Hrun.
  { intros v0 s. unfold _create_default_attr, mbind, Exec_bind, this.
    by destruct (hasattr class_names s name). }
  assert (hasattr class_names (set_attrs self (<[name := v]> (attrs self))) name
          = true) as Hset.
  { unfold hasattr. cbn [attrs set_attrs]. rewrite lookup_insert_eq.
    rewrite (bool_decide_eq_true_2 (is_Some (Some v))) by by eexists.
    by rewrite orb_true_r. }
  cbn zeta. rewrite Hrun.
  destruct (hasattr class_names self name) eqn:Hhas; cbn [res final].
  - repeat split; try done. intros v'. by rewrite Hrun, Hhas.
  - repeat split; try done. intros v'. by rewrite Hrun, Hset.
Qed.

Lemma create_default_attr_keeps_witness :
  let first := final (_create_default_attr [] "login_manager" (VObj "mine") two_users) in
  attrs first !! "login_manager" = Some (VObj "mine") /\
  final (_create_default_attr [] "login_manager" VNone first) = first.
Proof.
  cbn zeta.
  destruct (create_default_attr_keeps [] "login_manager" (VObj "mine") two_users)
    as (_ & _ & Hnew & _ & Hagain).
  split; [|apply Hagain].
  rewrite Hnew by by vm_compute. apply lookup_insert_eq.
Defined.

(** X14: the choice of the adapter in [init_app].  The step never raises
    and changes nothing but [db_adapter].  The adapter it leaves depends on
    [db] and on what is installed alone, not on what the manager held: that
    of SQLAlchemy for a SQLAlchemy [db], that of MongoAlchemy for a
    MongoAlchemy [db], and none for another [db], when the library cannot be
    imported, or when making the adapter raises. *)
Theorem configure_db_adapter_chooses
    (env : Installed) (db : Db) (self : UserManager) :
  let run := configure_db_adapter env db self in
  res run = Return () /\
  db_adapter (final run) =
    match db with
    | SQLAlchemy => if flask_sqlalchemy env then SQLAlchemyDbAdapter env else None
    | MongoAlchemy => if flask_mongoalchemy env then MongoAlchemyDbAdapter env else None
    | OtherDb => None
    end /\
  class_attrs (final run) = class_attrs self /\
  UserClass (final run) = UserClass self /\
  UserEmailClass (final run) = UserEmailClass self /\
  UserInvitationClass (final run) = UserInvitationClass self /\
  attrs (final run) = attrs self.
Proof.
  cbn zeta. unfold configure_db_adapter, mbind, Exec_bind, get_db_adapter,
    set_db_adapter, when, mret, Exec_ret.
  destruct db, (flask_sqlalchemy env), (flask_mongoalchemy env),
    (SQLAlchemyDbAdapter env), (MongoAlchemyDbAdapter env); cbn; done.
Qed.

Lemma configure_db_adapter_other env self :
  db_adapter (final (configure_db_adapter env OtherDb self)) = None.
Proof.
  unfold configure_db_adapter, mbind, Exec_bind, get_db_adapter,
    set_db_adapter, when, mret, Exec_ret.
  by destruct (flask_sqlalchemy env), (flask_mongoalchemy env).
Qed.

(** X15: a [db] that is neither SQLAlchemy nor MongoAlchemy.  After the
    choice of the adapter, [init_app] with a hook that returns and leaves
    [db_adapter] alone raises the [ConfigurationError] of the missing
    adapter, also when the manager held an adapter before. *)
Theorem init_app_unknown_db
    (env : Installed) (hook : Flask -> Exec unit) (app : Flask) (self : UserManager) :
  let prepared := final (configure_db_adapter env OtherDb self) in
  res (hook app prepared) = Return () ->
  db_adapter (final (hook app prepared)) = db_adapter prepared ->
  res (init_app hook app prepared) =
  Raise (ConfigurationError "You must specify a DbAdapter interface or install Flask-SQLAlchemy or FlaskMongAlchemy.").
Proof.
  cbn zeta. intros Hhook Hkept.
  pose proof (configure_db_adapter_other env self) as Hnone.
  rewrite init_app_run.
  destruct (hook app _) as [[[]|e] self1 t1]; [|discriminate].
  cbn [final] in Hkept. rewrite Hnone in Hkept.
  rewrite check_settings_run, Hkept. reflexivity.
Qed.

Lemma init_app_unknown_db_witness :
  is_Some (db_adapter two_users) /\
  exists msg,
    res (init_app customize new_app
           (final (configure_db_adapter
                     {| flask_sqlalchemy := true; flask_mongoalchemy := false;
                        SQLAlchemyDbAdapter := Some no_rows;
                        MongoAlchemyDbAdapter := None |} OtherDb two_users)))
    = Raise (ConfigurationError msg).
Proof.
  split; [by eexists|]. eexists.
  apply (init_app_unknown_db _ customize new_app two_users); reflexivity.
Defined.
